(** * RPG Maker MZ agents: a shallow embedding of the orchestration core

    The development follows the three Python modules of the repository:
    - [rmmz_schemas.py]: the pydantic data model (tasks, agent states,
      the game document, the workflow state);
    - [rmmz_tools.py]: the record store facade ([RPGMakerTools]);
    - [rmmz_agents.py]: the agents' [process] methods and the router
      [route_implementation].

    Python objects that are shared by reference (an [AgentTask] is reachable
    both from the director's queue and from a worker's [current_task]) live in
    an explicit object store; everything else is passed by value.  Strings are
    ASCII strings.  The float [implementation_progress] is modelled by an exact
    rational: the only operation on it is the addition of the literal 0.1. *)

From Stdlib Require Import String Ascii ZArith QArith List Bool Lia Lqa DecimalString.
From stdpp Require Import base list.
Import ListNotations.
Local Open Scope string_scope.
Local Open Scope Z_scope.
Local Set Warnings "-register-all".

(** ** Python built-ins used by the repository *)

Module Py.

(** The result of a call that may raise. *)
Inductive outcome (A : Type) : Type :=
| Returns (a : A)
| Raises.
Arguments Returns {A} a.
Arguments Raises {A}.

Definition bind {A B} (o : outcome A) (k : A -> outcome B) : outcome B :=
  match o with
  | Returns a => k a
  | Raises => Raises
  end.

Definition is_upper (c : ascii) : bool :=
  let n := nat_of_ascii c in (Nat.leb 65 n && Nat.leb n 90)%bool.

Definition is_lower (c : ascii) : bool :=
  let n := nat_of_ascii c in (Nat.leb 97 n && Nat.leb n 122)%bool.

Definition to_lower (c : ascii) : ascii :=
  if is_upper c then ascii_of_nat (nat_of_ascii c + 32) else c.

Definition to_upper (c : ascii) : ascii :=
  if is_lower c then ascii_of_nat (nat_of_ascii c - 32) else c.

(** [str.lower] *)
Fixpoint lower (s : string) : string :=
  match s with
  | EmptyString => EmptyString
  | String c s' => String (to_lower c) (lower s')
  end.

(** [str.title]: a cased character is upper-cased when the character
    before it is not cased, and lower-cased otherwise. *)
Fixpoint title_from (previous_is_cased : bool) (s : string) : string :=
  match s with
  | EmptyString => EmptyString
  | String c s' =>
      String (if previous_is_cased then to_lower c else to_upper c)
             (title_from (is_upper c || is_lower c) s')
  end.

Definition title (s : string) : string := title_from false s.

(** [str.replace old new] for a non-empty [old]: occurrences are replaced
    from left to right and do not overlap.  [skip] counts the characters
    of the occurrence being replaced that are still to be dropped. *)
Fixpoint replace_from (old new : string) (skip : nat) (s : string) : string :=
  match s with
  | EmptyString => EmptyString
  | String c s' =>
      match skip with
      | S k => replace_from old new k s'
      | O =>
          if String.prefix old s
          then new ++ replace_from old new (String.length old - 1) s'
          else String c (replace_from old new O s')
      end
  end.

Definition replace (old new s : string) : string := replace_from old new O s.

(** [x in xs] on a list of strings *)
Definition str_in (x : string) (xs : list string) : bool :=
  existsb (String.eqb x) xs.

(** [str.startswith] *)
Definition startswith (s p : string) : bool := String.prefix p s.

End Py.

Import Py.

(** JSON values as [json.load] returns them; numbers are integers, as in the
    data files the record store reads and writes.  [JObj] lists the items of
    a Python dict in insertion order, with distinct keys. *)
Inductive json : Type :=
| JNull
| JBool (b : bool)
| JInt (z : Z)
| JStr (s : string)
| JArr (items : list json)
| JObj (items : list (string * json)).

(** [Dict[str, Any]] *)
Definition pydict : Type := list (string * json).

(** [d.get(key, default)] *)
Fixpoint dict_get (key : string) (default : json) (d : pydict) : json :=
  match d with
  | [] => default
  | (k, v) :: d' => if String.eqb k key then v else dict_get key default d'
  end.

(** [d[key] = v]: an existing key keeps its position. *)
Fixpoint dict_set (key : string) (v : json) (d : pydict) : pydict :=
  match d with
  | [] => [(key, v)]
  | (k, w) :: d' => if String.eqb k key then (k, v) :: d' else (k, w) :: dict_set key v d'
  end.

(** ** rmmz_schemas.py

    A field [f] of a pydantic class keeps its name, with a short prefix for
    the class where two classes share it.  Fields that hold lists of
    free-form dicts are kept as [pydict] lists. *)

(** References to [AgentTask] objects: positions in the object store. *)
Definition addr : Type := nat.

Record GameMetadata : Type := mkGameMetadata {
  title_ : string;
  version : string;
  creator : string;
  meta_description : string;
  resolution : list (string * Z)
}.

Record GameLocation : Type := mkGameLocation {
  loc_id : option Z;
  loc_name : string;
  loc_description : string;
  width : Z;
  height : Z;
  tileset_id : Z;
  background_music : option pydict;
  encounter_list : list pydict;
  encounter_rate : Z;
  features : list string;
  notes : string
}.

Record CutsceneData : Type := mkCutsceneData {
  cs_id : option Z;
  cs_name : string;
  cs_description : string;
  cs_location : Z + string;
  cs_actors : list pydict;
  cs_sequences : list pydict
}.

Record GameDataSchema : Type := mkGameDataSchema {
  metadata : GameMetadata;
  locations : list GameLocation;
  characters : list pydict;
  quests : list pydict;
  dialogues : list pydict;
  cutscenes : list CutsceneData;
  battles : list pydict;
  variables : list (string * pydict);
  switches : list (string * pydict)
}.

Record AgentTask : Type := mkAgentTask {
  task_id : string;
  task_type : string;
  task_description : string;
  priority : Z;
  dependencies : list string;
  status : string;
  assigned_to : option string;
  data : pydict;
  result : option pydict
}.

Record AgentState : Type := mkAgentState {
  agent_id : string;
  agent_type : string;
  current_task : option addr;
  completed_tasks : list string;
  knowledge_base : pydict;
  working_data : pydict
}.

Record DirectorAgentState : Type := mkDirectorAgentState {
  dir_base : AgentState;
  task_queue : list addr;
  agent_assignments : list (string * list string);
  dir_implementation_progress : list (string * Q)
}.

Record WorldBuilderAgentState : Type := mkWorldBuilderAgentState {
  wb_base : AgentState;
  maps_created : list Z;
  maps_in_progress : list (Z * Q);
  location_interpretations : list (string * pydict)
}.

Record EventEngineerAgentState : Type := mkEventEngineerAgentState {
  ee_base : AgentState;
  events_created : list pydict;
  dialogue_created : list pydict;
  cutscenes_created : list pydict
}.

Record CombatSystemAgentState : Type := mkCombatSystemAgentState {
  cs_base : AgentState;
  skills_created : list Z;
  enemies_created : list Z;
  troops_created : list Z;
  balance_metrics : pydict
}.

Record AssetManagerAgentState : Type := mkAssetManagerAgentState {
  am_base : AgentState;
  assets_required : list (string * list string);
  assets_available : list (string * list string);
  asset_mappings : list (string * string)
}.

Record TestingAgentState : Type := mkTestingAgentState {
  ts_base : AgentState;
  test_scenarios : list pydict;
  test_results : list (string * pydict);
  issues_found : list pydict
}.

(** [GameImplementationState], together with the store of the [AgentTask]
    objects it refers to. *)
Record GameImplementationState : Type := mkState {
  tasks : list AgentTask;
  game_data : GameDataSchema;
  director : DirectorAgentState;
  world_builder : option WorldBuilderAgentState;
  event_engineer : option EventEngineerAgentState;
  combat_system : option CombatSystemAgentState;
  asset_manager : option AssetManagerAgentState;
  tester : option TestingAgentState;
  current_stage : string;
  implementation_progress : Q;
  log : list pydict
}.

(** Attribute assignments. *)

Definition set_tasks (h : list AgentTask) (s : GameImplementationState) :=
  mkState h (game_data s) (director s) (world_builder s) (event_engineer s)
    (combat_system s) (asset_manager s) (tester s) (current_stage s)
    (implementation_progress s) (log s).

Definition set_game_data (g : GameDataSchema) (s : GameImplementationState) :=
  mkState (tasks s) g (director s) (world_builder s) (event_engineer s)
    (combat_system s) (asset_manager s) (tester s) (current_stage s)
    (implementation_progress s) (log s).

Definition set_director (d : DirectorAgentState) (s : GameImplementationState) :=
  mkState (tasks s) (game_data s) d (world_builder s) (event_engineer s)
    (combat_system s) (asset_manager s) (tester s) (current_stage s)
    (implementation_progress s) (log s).

Definition set_world_builder (w : option WorldBuilderAgentState) (s : GameImplementationState) :=
  mkState (tasks s) (game_data s) (director s) w (event_engineer s)
    (combat_system s) (asset_manager s) (tester s) (current_stage s)
    (implementation_progress s) (log s).

Definition set_event_engineer (e : option EventEngineerAgentState) (s : GameImplementationState) :=
  mkState (tasks s) (game_data s) (director s) (world_builder s) e
    (combat_system s) (asset_manager s) (tester s) (current_stage s)
    (implementation_progress s) (log s).

Definition set_combat_system (c : option CombatSystemAgentState) (s : GameImplementationState) :=
  mkState (tasks s) (game_data s) (director s) (world_builder s) (event_engineer s)
    c (asset_manager s) (tester s) (current_stage s)
    (implementation_progress s) (log s).

Definition set_asset_manager (a : option AssetManagerAgentState) (s : GameImplementationState) :=
  mkState (tasks s) (game_data s) (director s) (world_builder s) (event_engineer s)
    (combat_system s) a (tester s) (current_stage s)
    (implementation_progress s) (log s).

Definition set_tester (t : option TestingAgentState) (s : GameImplementationState) :=
  mkState (tasks s) (game_data s) (director s) (world_builder s) (event_engineer s)
    (combat_system s) (asset_manager s) t (current_stage s)
    (implementation_progress s) (log s).

Definition set_current_stage (st : string) (s : GameImplementationState) :=
  mkState (tasks s) (game_data s) (director s) (world_builder s) (event_engineer s)
    (combat_system s) (asset_manager s) (tester s) st
    (implementation_progress s) (log s).

Definition set_implementation_progress (p : Q) (s : GameImplementationState) :=
  mkState (tasks s) (game_data s) (director s) (world_builder s) (event_engineer s)
    (combat_system s) (asset_manager s) (tester s) (current_stage s) p (log s).

Definition set_locations (l : list GameLocation) (g : GameDataSchema) :=
  mkGameDataSchema (metadata g) l (characters g) (quests g) (dialogues g)
    (cutscenes g) (battles g) (variables g) (switches g).

Definition set_current_task (c : option addr) (a : AgentState) :=
  mkAgentState (agent_id a) (agent_type a) c (completed_tasks a)
    (knowledge_base a) (working_data a).

Definition set_completed_tasks (c : list string) (a : AgentState) :=
  mkAgentState (agent_id a) (agent_type a) (current_task a) c
    (knowledge_base a) (working_data a).

Definition set_dir_base (b : AgentState) (d : DirectorAgentState) :=
  mkDirectorAgentState b (task_queue d) (agent_assignments d) (dir_implementation_progress d).

Definition set_task_queue (q : list addr) (d : DirectorAgentState) :=
  mkDirectorAgentState (dir_base d) q (agent_assignments d) (dir_implementation_progress d).

Definition set_wb_base (b : AgentState) (w : WorldBuilderAgentState) :=
  mkWorldBuilderAgentState b (maps_created w) (maps_in_progress w) (location_interpretations w).

Definition set_maps_created (m : list Z) (w : WorldBuilderAgentState) :=
  mkWorldBuilderAgentState (wb_base w) m (maps_in_progress w) (location_interpretations w).

Definition set_ee_base (b : AgentState) (e : EventEngineerAgentState) :=
  mkEventEngineerAgentState b (events_created e) (dialogue_created e) (cutscenes_created e).

Definition set_events_created (l : list pydict) (e : EventEngineerAgentState) :=
  mkEventEngineerAgentState (ee_base e) l (dialogue_created e) (cutscenes_created e).

Definition set_status (st : string) (t : AgentTask) :=
  mkAgentTask (task_id t) (task_type t) (task_description t) (priority t)
    (dependencies t) st (assigned_to t) (data t) (result t).

Definition set_assigned_to (r : option string) (t : AgentTask) :=
  mkAgentTask (task_id t) (task_type t) (task_description t) (priority t)
    (dependencies t) (status t) r (data t) (result t).

Definition set_result (r : option pydict) (t : AgentTask) :=
  mkAgentTask (task_id t) (task_type t) (task_description t) (priority t)
    (dependencies t) (status t) (assigned_to t) (data t) r.

Definition set_loc_id (i : option Z) (l : GameLocation) :=
  mkGameLocation i (loc_name l) (loc_description l) (width l) (height l)
    (tileset_id l) (background_music l) (encounter_list l) (encounter_rate l)
    (features l) (notes l).

(** In-place update of the task object at [a]. *)
Definition update_task (a : addr) (f : AgentTask -> AgentTask) (s : GameImplementationState) :=
  match tasks s !! a with
  | Some t => set_tasks (<[a := f t]> (tasks s)) s
  | None => s
  end.

(** ** rmmz_tools.py *)

Module RPGMakerTools.

Record EventCommand : Type := mkEventCommand {
  code : Z;
  parameters : list json;
  indent : Z
}.

Record EventPage : Type := mkEventPage {
  conditions : pydict;
  image : pydict;
  move_type : Z;
  move_speed : Z;
  move_frequency : Z;
  move_route : pydict;
  walk_anime : bool;
  step_anime : bool;
  direction_fix : bool;
  through : bool;
  priority_type : Z;
  trigger : Z;
  list_ : list EventCommand
}.

(** [EventCommand(code=c, parameters=ps)] *)
Definition command (c : Z) (ps : list json) : EventCommand := mkEventCommand c ps 0.

(** [EventPage(...)] with the defaults of the class for the other fields. *)
Definition page (conds img : pydict) (trig : Z) (cmds : list EventCommand) : EventPage :=
  mkEventPage conds img 0 3 3 [] true false false false 1 trig cmds.

(** [cmd.dict()] and [page.dict()] *)
Definition command_dict (c : EventCommand) : json :=
  JObj [("code", JInt (code c)); ("parameters", JArr (parameters c)); ("indent", JInt (indent c))].

Definition page_dict (p : EventPage) : json :=
  JObj [("conditions", JObj (conditions p)); ("image", JObj (image p));
        ("move_type", JInt (move_type p)); ("move_speed", JInt (move_speed p));
        ("move_frequency", JInt (move_frequency p)); ("move_route", JObj (move_route p));
        ("walk_anime", JBool (walk_anime p)); ("step_anime", JBool (step_anime p));
        ("direction_fix", JBool (direction_fix p)); ("through", JBool (through p));
        ("priority_type", JInt (priority_type p)); ("trigger", JInt (trigger p));
        ("list", JArr (map command_dict (list_ p)))].

(** The attributes of an [RPGMakerTools] instance that the creation calls
    use, and the map files of the data directory: [map_files] gives the
    content of [Map{id:03d}.json] for the ids that have a readable file.
    [writable] tells whether [_save_json] succeeds; when it does not, the
    error is printed and swallowed. *)
Record t : Type := mkTools {
  map_infos : json;
  actors : json;
  classes : json;
  skills : json;
  enemies : json;
  common_events : json;
  map_files : list (Z * json);
  writable : bool
}.

(** Truth value of a Python object *)
Definition truthy (j : json) : bool :=
  match j with
  | JNull => false
  | JBool b => b
  | JInt z => negb (z =? 0)
  | JStr s => negb (String.eqb s "")
  | JArr l => match l with [] => false | _ => true end
  | JObj l => match l with [] => false | _ => true end
  end.

(** [str(n)] for an integer *)
Definition str (n : Z) : string := DecimalString.NilZero.string_of_int (Z.to_int n).

(** An object that [max] and [+ 1] accept together with integers. *)
Definition as_int (j : json) : option Z :=
  match j with
  | JInt z => Some z
  | JBool b => Some (Z.b2z b)
  | _ => None
  end.

Fixpoint as_ints (js : list json) : option (list Z) :=
  match js with
  | [] => Some []
  | j :: js' =>
      match as_int j, as_ints js' with
      | Some z, Some zs => Some (z :: zs)
      | _, _ => None
      end
  end.

(** [max(zs)] on a non-empty list of integers *)
Definition max_of (z : Z) (zs : list Z) : Z := fold_left Z.max zs z.

(** [max(ids) + 1 if ids else 1].  On a non-empty list with an element
    that is not a number, either [max] or the addition raises
    [TypeError]. *)
Definition next_id (ids : list json) : outcome Z :=
  match ids with
  | [] => Returns 1
  | _ =>
      match as_ints ids with
      | Some (z :: zs) => Returns (max_of z zs + 1)
      | _ => Raises
      end
  end.

(** [[x.get('id', 0) for x in xs if isinstance(x, dict)]] *)
Fixpoint ids_of (xs : list json) : list json :=
  match xs with
  | [] => []
  | JObj d :: xs' => dict_get "id" (JInt 0) d :: ids_of xs'
  | _ :: xs' => ids_of xs'
  end.

(** [get_map]: [_load_json] returns the empty dict for a missing or
    malformed file. *)
Fixpoint get_file (map_id : Z) (files : list (Z * json)) : json :=
  match files with
  | [] => JObj []
  | (k, v) :: files' => if k =? map_id then v else get_file map_id files'
  end.

Definition get_map (self : t) (map_id : Z) : json := get_file map_id (map_files self).

Fixpoint put_file (map_id : Z) (v : json) (files : list (Z * json)) : list (Z * json) :=
  match files with
  | [] => [(map_id, v)]
  | (k, w) :: files' =>
      if k =? map_id then (k, v) :: files' else (k, w) :: put_file map_id v files'
  end.

(** [_save_json] of a map file *)
Definition save_map (self : t) (map_id : Z) (v : json) : t :=
  if writable self
  then mkTools (map_infos self) (actors self) (classes self) (skills self)
         (enemies self) (common_events self) (put_file map_id v (map_files self)) true
  else self.

Definition set_map_infos (v : json) (self : t) : t :=
  mkTools v (actors self) (classes self) (skills self) (enemies self)
    (common_events self) (map_files self) (writable self).






Definition sound : json :=
  JObj [("name", JStr ""); ("pan", JInt 0); ("pitch", JInt 100); ("volume", JInt 90)].

(** [create_map]: [self.map_infos.values()] raises unless [map_infos] is a
    dict. *)
Definition create_map (self : t) (name : string) (w h tileset : Z) : outcome (Z * t) :=
  match map_infos self with
  | JObj infos =>
      let map_ids := ids_of (map snd infos) in
      bind (next_id map_ids) (fun n =>
        let info := JObj [("id", JInt n); ("name", JStr name); ("expanded", JBool true);
                          ("order", JInt n); ("parentId", JInt 0);
                          ("scrollX", JInt 0); ("scrollY", JInt 0)] in
        let map_data :=
          JObj [("autoplayBgm", JBool false); ("autoplayBgs", JBool false);
                ("battleback1Name", JStr ""); ("battleback2Name", JStr "");
                ("bgm", sound); ("bgs", sound);
                ("disableDashing", JBool false); ("displayName", JStr "");
                ("encounterList", JArr []); ("encounterStep", JInt 30);
                ("height", JInt h); ("note", JStr "");
                ("parallaxLoopX", JBool false); ("parallaxLoopY", JBool false);
                ("parallaxName", JStr ""); ("parallaxShow", JBool true);
                ("parallaxSx", JInt 0); ("parallaxSy", JInt 0);
                ("scrollType", JInt 0); ("specifyBattleback", JBool false);
                ("tilesetId", JInt tileset); ("width", JInt w);
                ("data", JArr (repeat (JInt 0) (Z.to_nat (w * h * 6))));
                ("events", JObj [])] in
        let self1 := set_map_infos (JObj (dict_set (str n) info infos)) self in
        Returns (n, save_map self1 n map_data))
  | _ => Raises
  end.

Section WithInt.

(** Python's [int] on a string: [None] stands for [ValueError]. *)
Variable py_int : string -> option Z.

(** [[int(k) for k in events.keys() if k != "null" and k is not None]] *)
Fixpoint event_ids (keys : list string) : outcome (list Z) :=
  match keys with
  | [] => Returns []
  | k :: keys' =>
      if String.eqb k "null" then event_ids keys'
      else match py_int k with
           | Some z => bind (event_ids keys') (fun zs => Returns (z :: zs))
           | None => Raises
           end
  end.

Definition default_page : EventPage :=
  page [("actorId", JInt 1); ("actorValid", JBool false);
        ("itemId", JInt 1); ("itemValid", JBool false);
        ("selfSwitchCh", JStr "A"); ("selfSwitchValid", JBool false);
        ("switch1Id", JInt 1); ("switch1Valid", JBool false);
        ("switch2Id", JInt 1); ("switch2Valid", JBool false);
        ("variableId", JInt 1); ("variableValid", JBool false);
        ("variableValue", JInt 0)]
       [("characterIndex", JInt 0); ("characterName", JStr "");
        ("direction", JInt 2); ("pattern", JInt 1); ("tileId", JInt 0)]
       0 [command 0 []].

(** [create_event]: raises [ValueError] when the map is missing or empty,
    and [AttributeError] when the map or its events are not dicts. *)
Definition create_event (self : t) (map_id : Z) (name : string) (x y : Z)
    (pages : option (list EventPage)) : outcome (Z * t) :=
  let map_data := get_map self map_id in
  if negb (truthy map_data) then Raises
  else
    match map_data with
    | JObj md =>
        match dict_get "events" (JObj []) md with
        | JObj events =>
            bind (event_ids (map fst events)) (fun ids =>
            bind (next_id (map JInt ids)) (fun n =>
              let pages :=
                match pages with
                | None | Some [] => [default_page]
                | Some ps => ps
                end in
              let event_data :=
                JObj [("id", JInt n); ("name", JStr name); ("note", JStr "");
                      ("pages", JArr (map page_dict pages));
                      ("x", JInt x); ("y", JInt y)] in
              let events1 := dict_set (str n) event_data events in
              let map_data1 := JObj (dict_set "events" (JObj events1) md) in
              Returns (n, save_map self map_id map_data1)))
        | _ => Raises
        end
    | _ => Raises
    end.

End WithInt.








(** Event command tools *)

Definition add_message_command (text face_name : string) (face_index : Z) : EventCommand :=
  command 101 [JStr face_name; JInt face_index; JInt 0; JInt 0; JStr text].

Definition add_text_command (text : string) : EventCommand :=
  command 401 [JStr text].

Fixpoint choice_branches (i : Z) (choices : list string) : list EventCommand :=
  match choices with
  | [] => []
  | _ :: choices' =>
      command 402 [JInt 0; JInt i] :: command 0 [] :: choice_branches (i + 1) choices'
  end.

Definition add_choice_command (choices : list string) (cancel_type : Z) : list EventCommand :=
  command 102 [JArr (map JStr choices); JInt cancel_type]
  :: choice_branches 0 choices
  ++ (if 0 <? cancel_type then [command 403 []; command 0 []] else []).

End RPGMakerTools.

(** ** rmmz_agents.py *)

(** What an agent sees of [self.tools] during one call of [process]: the
    creation calls either return the allocated id or raise. *)
Record Tools : Type := mkToolsFacade {
  call_create_map : string -> Z -> Z -> Z -> outcome Z;
  call_create_event : Z -> string -> Z -> Z -> list RPGMakerTools.EventPage -> outcome Z
}.

(** The facade of a concrete record store. *)
Definition facade (py_int : string -> option Z) (store : RPGMakerTools.t) : Tools :=
  mkToolsFacade
    (fun name w h ts =>
       bind (RPGMakerTools.create_map store name w h ts) (fun r => Returns (fst r)))
    (fun map_id name x y pages =>
       bind (RPGMakerTools.create_event py_int store map_id name x y (Some pages))
            (fun r => Returns (fst r))).

(** The nodes of the workflow graph, named by the strings that
    [route_implementation] returns. *)
Inductive Node : Type :=
| Director
| WorldBuilder
| EventEngineer
| CombatSystem
| AssetManager
| Tester.

Definition new_agent_state (name : string) : AgentState :=
  mkAgentState name name None [] [] [].

(** [task.id] of the object at [a] *)
Definition id_at (h : list AgentTask) (a : addr) : option string :=
  task_id <$> h !! a.

(** [for t in state.director.task_queue: if p(t): task = t; break] *)
Fixpoint find_task (p : AgentTask -> bool) (h : list AgentTask) (q : list addr) : option addr :=
  match q with
  | [] => None
  | a :: q' =>
      match h !! a with
      | Some t => if p t then Some a else find_task p h q'
      | None => find_task p h q'
      end
  end.

(** [[t for t in queue if t.id != id]] *)
Definition remove_id (h : list AgentTask) (id : string) (q : list addr) : list addr :=
  List.filter (fun b => match id_at h b with
                        | Some i => negb (String.eqb i id)
                        | None => false
                        end) q.

(** The dependency check shared by the event engineer and the router. *)
Definition dependencies_met (completed : list string) (t : AgentTask) : bool :=
  forallb (fun dep_id => str_in dep_id completed) (dependencies t).

Definition event_engineer_types : list string :=
  ["event_creation"; "cutscene_creation"; "dialogue_creation"].

Definition with_director (f : DirectorAgentState -> DirectorAgentState)
    (s : GameImplementationState) : GameImplementationState :=
  set_director (f (director s)) s.

Definition with_world_builder (f : WorldBuilderAgentState -> WorldBuilderAgentState)
    (s : GameImplementationState) : GameImplementationState :=
  set_world_builder (f <$> world_builder s) s.

Definition with_event_engineer (f : EventEngineerAgentState -> EventEngineerAgentState)
    (s : GameImplementationState) : GameImplementationState :=
  set_event_engineer (f <$> event_engineer s) s.

(** The bookkeeping both workers do on the director's side after a success:
    record the id, drop the task from the queue, add 0.1 to the progress. *)
Definition report_completed (id : string) (s : GameImplementationState)
    : GameImplementationState :=
  let s1 := with_director (fun d =>
              set_dir_base (set_completed_tasks (completed_tasks (dir_base d) ++ [id])
                              (dir_base d)) d) s in
  let s2 := with_director (set_task_queue (remove_id (tasks s1) id (task_queue (director s1)))) s1 in
  set_implementation_progress (implementation_progress s2 + (1 # 10))%Q s2.

Module DirectorAgent.

Definition world_builder_task : AgentTask :=
  mkAgentTask "create_starting_town" "map_creation"
    "Create the starting town map based on game design" 1 [] "pending" None [] None.

Definition event_engineer_task : AgentTask :=
  mkAgentTask "create_intro_cutscene" "cutscene_creation"
    "Create the intro cutscene for the game" 2 ["create_starting_town"] "pending" None [] None.

(** [state.director] is not optional, so the initialisation branch is never
    taken.  The two new task objects are allocated at the end of the store. *)
Definition process (s : GameImplementationState) : GameImplementationState :=
  if String.eqb (current_stage s) "planning" then
    let a := length (tasks s) in
    let s1 := set_tasks (tasks s ++ [world_builder_task; event_engineer_task]) s in
    let s2 := with_director (set_task_queue [a; S a]) s1 in
    set_current_stage "implementation" s2
  else s.

End DirectorAgent.

Module WorldBuilderAgent.

Definition agent_id : string := "world_builder".

Definition init (s : GameImplementationState) : GameImplementationState :=
  match world_builder s with
  | Some _ => s
  | None =>
      set_world_builder
        (Some (mkWorldBuilderAgentState (new_agent_state agent_id) [] [] [])) s
  end.

Definition eligible (t : AgentTask) : bool :=
  String.eqb (task_type t) "map_creation" && String.eqb (status t) "pending".

Definition find (s : GameImplementationState) : option addr :=
  find_task eligible (tasks s) (task_queue (director s)).

Definition claim (a : addr) (s : GameImplementationState) : GameImplementationState :=
  let s1 := update_task a (set_status "in_progress") s in
  let s2 := update_task a (set_assigned_to (Some agent_id)) s1 in
  with_world_builder (fun w => set_wb_base (set_current_task (Some a) (wb_base w)) w) s2.

Definition location_name (id : string) : string :=
  replace "_" " " (replace "create_" "" id).

Definition lookup_location (name : string) (locs : list GameLocation) : option GameLocation :=
  List.find (fun loc => String.eqb (lower (loc_name loc)) (lower name)) locs.

Definition default_location (name : string) : GameLocation :=
  mkGameLocation None (title name) ("A location called " ++ title name)
    20 15 1 None [] 30 [] "".

(** The location the task works on, and the state after a missing one has
    been appended to the game data. *)
Definition resolve_location (id : string) (s : GameImplementationState)
    : GameLocation * GameImplementationState :=
  let name := location_name id in
  match lookup_location name (locations (game_data s)) with
  | Some loc => (loc, s)
  | None =>
      let loc := default_location name in
      (loc, set_game_data (set_locations (locations (game_data s) ++ [loc]) (game_data s)) s)
  end.

(** [for loc in locations: if loc.name == name: loc.id = map_id; break] *)
Fixpoint set_map_id (name : string) (map_id : Z) (locs : list GameLocation)
    : list GameLocation :=
  match locs with
  | [] => []
  | loc :: locs' =>
      if String.eqb (loc_name loc) name
      then set_loc_id (Some map_id) loc :: locs'
      else loc :: set_map_id name map_id locs'
  end.

Definition succeed (a : addr) (id : string) (location : GameLocation) (map_id : Z)
    (s : GameImplementationState) : GameImplementationState :=
  let s1 := with_world_builder (fun w => set_maps_created (maps_created w ++ [map_id]) w) s in
  let s2 := set_game_data
              (set_locations (set_map_id (loc_name location) map_id
                                (locations (game_data s1))) (game_data s1)) s1 in
  let s3 := update_task a (set_status "completed") s2 in
  let s4 := update_task a (set_result (Some [("map_id", JInt map_id)])) s3 in
  let s5 := with_world_builder (fun w =>
              set_wb_base (set_current_task None (wb_base w)) w) s4 in
  let s6 := with_world_builder (fun w =>
              set_wb_base (set_completed_tasks (completed_tasks (wb_base w) ++ [id])
                             (wb_base w)) w) s5 in
  report_completed id s6.

Definition fail (a : addr) (s : GameImplementationState) : GameImplementationState :=
  update_task a (set_status "failed") s.

(** The language-model call between the claim and the creation only
    produces a string that is printed. *)
Definition process (tools : option Tools) (s : GameImplementationState)
    : GameImplementationState :=
  let s0 := init s in
  match find s0 with
  | None => s0
  | Some a =>
      match tasks s0 !! a with
      | None => s0
      | Some task =>
          let s1 := claim a s0 in
          let (location, s2) := resolve_location (task_id task) s1 in
          match tools with
          | None => s2
          | Some f =>
              match call_create_map f (loc_name location) (width location)
                      (height location) (tileset_id location) with
              | Returns map_id => succeed a (task_id task) location map_id s2
              | Raises => fail a s2
              end
          end
      end
  end.

End WorldBuilderAgent.

Module EventEngineerAgent.

Definition agent_id : string := "event_engineer".

Definition init (s : GameImplementationState) : GameImplementationState :=
  match event_engineer s with
  | Some _ => s
  | None =>
      set_event_engineer
        (Some (mkEventEngineerAgentState (new_agent_state agent_id) [] [] [])) s
  end.

Definition eligible (completed : list string) (t : AgentTask) : bool :=
  str_in (task_type t) event_engineer_types
  && String.eqb (status t) "pending"
  && dependencies_met completed t.

Definition find (s : GameImplementationState) : option addr :=
  find_task (eligible (completed_tasks (dir_base (director s))))
    (tasks s) (task_queue (director s)).

Definition claim (a : addr) (s : GameImplementationState) : GameImplementationState :=
  let s1 := update_task a (set_status "in_progress") s in
  let s2 := update_task a (set_assigned_to (Some agent_id)) s1 in
  with_event_engineer (fun e => set_ee_base (set_current_task (Some a) (ee_base e)) e) s2.



(** [state.game_data.locations[0].id if state.game_data.locations else 1] *)
Definition first_map_id (s : GameImplementationState) : option Z :=
  match locations (game_data s) with
  | [] => Some 1
  | loc :: _ => loc_id loc
  end.




Definition intro_page : RPGMakerTools.EventPage :=
  RPGMakerTools.page [] [] 3
    ([RPGMakerTools.add_message_command "Welcome to our game!" "Actor1" 0;
      RPGMakerTools.add_text_command "This is the beginning of an epic adventure.";
      RPGMakerTools.add_text_command "Are you ready to begin?"]
     ++ RPGMakerTools.add_choice_command ["Yes, I'm ready!"; "Tell me more first."] 0).

(** [self.tools.create_event(map_id=map_id, ...)]: with [map_id] being
    [None], formatting the map's file name raises. *)
Definition create_intro_event (f : Tools) (map_id : option Z) : outcome (Z * Z) :=
  match map_id with
  | None => Raises
  | Some m =>
      bind (call_create_event f m "Intro Cutscene" 5 5 [intro_page])
           (fun event_id => Returns (event_id, m))
  end.

Definition succeed (a : addr) (id : string) (event_id map_id : Z)
    (s : GameImplementationState) : GameImplementationState :=
  let event_data := [("id", JInt event_id); ("map_id", JInt map_id);
                     ("name", JStr "Intro Cutscene"); ("type", JStr "cutscene")] in
  let s1 := with_event_engineer (fun e =>
              set_events_created (events_created e ++ [event_data]) e) s in
  let s2 := update_task a (set_status "completed") s1 in
  let s3 := update_task a (set_result (Some [("event_id", JInt event_id);
                                               ("map_id", JInt map_id)])) s2 in
  let s4 := with_event_engineer (fun e =>
              set_ee_base (set_current_task None (ee_base e)) e) s3 in
  let s5 := with_event_engineer (fun e =>
              set_ee_base (set_completed_tasks (completed_tasks (ee_base e) ++ [id])
                             (ee_base e)) e) s4 in
  report_completed id s5.

Definition fail (a : addr) (s : GameImplementationState) : GameImplementationState :=
  update_task a (set_status "failed") s.

Definition process (tools : option Tools) (s : GameImplementationState)
    : GameImplementationState :=
  let s0 := init s in
  match find s0 with
  | None => s0
  | Some a =>
      match tasks s0 !! a with
      | None => s0
      | Some task =>
          let s1 := claim a s0 in
          match tools with
          | None => s1
          | Some f =>
              if String.eqb (task_type task) "cutscene_creation" then
                match create_intro_event f (first_map_id s1) with
                | Returns (event_id, map_id) => succeed a (task_id task) event_id map_id s1
                | Raises => fail a s1
                end
              else s1
          end
      end
  end.

End EventEngineerAgent.

Module CombatSystemAgent.

Definition agent_id : string := "combat_system".

Definition process (s : GameImplementationState) : GameImplementationState :=
  match combat_system s with
  | Some _ => s
  | None =>
      set_combat_system
        (Some (mkCombatSystemAgentState (new_agent_state agent_id) [] [] [] [])) s
  end.

End CombatSystemAgent.

Module AssetManagerAgent.

Definition agent_id : string := "asset_manager".

Definition process (s : GameImplementationState) : GameImplementationState :=
  match asset_manager s with
  | Some _ => s
  | None =>
      set_asset_manager
        (Some (mkAssetManagerAgentState (new_agent_state agent_id) [] [] [])) s
  end.

End AssetManagerAgent.

Module TestingAgent.

Definition agent_id : string := "tester".

Definition process (s : GameImplementationState) : GameImplementationState :=
  match tester s with
  | Some _ => s
  | None =>
      set_tester (Some (mkTestingAgentState (new_agent_state agent_id) [] [] [])) s
  end.

End TestingAgent.

(** The loop of [route_implementation] over the queue. *)
Fixpoint route_tasks (h : list AgentTask) (completed : list string) (q : list addr)
    : option Node :=
  match q with
  | [] => None
  | a :: q' =>
      match h !! a with
      | None => route_tasks h completed q'
      | Some task =>
          if String.eqb (status task) "pending" then
            if startswith (task_type task) "map" then Some WorldBuilder
            else if str_in (task_type task) event_engineer_types then
              if dependencies_met completed task then Some EventEngineer
              else route_tasks h completed q'
            else if str_in (task_type task) ["skill_creation"; "enemy_creation"; "troop_creation"]
            then Some CombatSystem
            else if str_in (task_type task) ["asset_management"] then Some AssetManager
            else route_tasks h completed q'
          else route_tasks h completed q'
      end
  end.

Definition route_implementation (s : GameImplementationState) : Node :=
  if String.eqb (current_stage s) "planning" then Director
  else
    match route_tasks (tasks s) (completed_tasks (dir_base (director s)))
            (task_queue (director s)) with
    | Some node => node
    | None => if String.eqb (current_stage s) "testing" then Tester else Director
    end.

(** The node table of [build_agent_workflow]. *)
Definition dispatch (node : Node) (tools : option Tools) (s : GameImplementationState)
    : GameImplementationState :=
  match node with
  | Director => DirectorAgent.process s
  | WorldBuilder => WorldBuilderAgent.process tools s
  | EventEngineer => EventEngineerAgent.process tools s
  | CombatSystem => CombatSystemAgent.process s
  | AssetManager => AssetManagerAgent.process s
  | Tester => TestingAgent.process s
  end.

Definition initialize_game_state (title description : string) : GameImplementationState :=
  mkState []
    (mkGameDataSchema
       (mkGameMetadata title "1.0.0" "RPG Maker Agents" description
          [("width", 816); ("height", 624)])
       [] [] [] [] [] [] [] [])
    (mkDirectorAgentState (new_agent_state "director") [] [] [])
    None None None None None "planning" 0%Q [].

(** Modelled from the spec: the engine's step loop (section 4.5).  The
    repository hands the graph to the LangGraph runtime, which is not part of
    it; one step asks the router for a node and runs that node's [process]
    once, and the loop stops on an empty queue or when the step budget is
    used up.  The budget is the length of [world], which gives what
    [self.tools] is and answers at each step. *)
Definition step (tools : option Tools) (s : GameImplementationState)
    : GameImplementationState :=
  dispatch (route_implementation s) tools s.

Fixpoint run (world : list (option Tools)) (s : GameImplementationState)
    : GameImplementationState :=
  match world with
  | [] => s
  | tools :: world' =>
      let s' := step tools s in
      match task_queue (director s') with
      | [] => s'
      | _ => run world' s'
      end
  end.

(** ** States and tools used as examples and in statements *)

Definition combat_and_asset_types : list string :=
  ["skill_creation"; "enemy_creation"; "troop_creation"; "asset_management"].

Definition skill_task : AgentTask :=
  mkAgentTask "create_fire_skill" "skill_creation" "Create the fire skill" 1 []
    "pending" None [] None.

Definition combat_state : GameImplementationState :=
  mkState [skill_task]
    (game_data (initialize_game_state "Demo" ""))
    (mkDirectorAgentState (new_agent_state "director") [0%nat] [] [])
    None None None None None "implementation" 0%Q [].

(** A task as its claim leaves it. *)
Definition claimed_by (agent : string) (t : AgentTask) : AgentTask :=
  set_assigned_to (Some agent) (set_status "in_progress" t).

Definition dialogue_task : AgentTask :=
  mkAgentTask "create_elder_dialogue" "dialogue_creation" "Write the elder's dialogue" 1 []
    "pending" None [] None.

Definition dialogue_state : GameImplementationState :=
  mkState [dialogue_task]
    (game_data (initialize_game_state "Demo" ""))
    (mkDirectorAgentState (new_agent_state "director") [0%nat] [] [])
    None None None None None "implementation" 0%Q [].

Definition tools_returning (map_id event_id : Z) : Tools :=
  mkToolsFacade (fun _ _ _ _ => Returns map_id) (fun _ _ _ _ _ => Returns event_id).

Definition tools_raising : Tools :=
  mkToolsFacade (fun _ _ _ _ => Raises) (fun _ _ _ _ _ => Raises).

(** The states a run goes through, the first one included. *)
Fixpoint trace (world : list (option Tools)) (s : GameImplementationState)
    : list GameImplementationState :=
  s :: match world with
       | [] => []
       | tools :: world' =>
           let s' := step tools s in
           match task_queue (director s') with
           | [] => [s']
           | _ => trace world' s'
           end
       end.

(** How often the stage goes from [old] to [new] along a list of states. *)
Fixpoint stage_transitions (old new : string) (states : list GameImplementationState) : nat :=
  match states with
  | s1 :: (s2 :: _) as rest =>
      (if String.eqb (current_stage s1) old && String.eqb (current_stage s2) new
       then 1 else 0)%nat
      + stage_transitions old new rest
  | _ => 0%nat
  end.

(** A task as a successful creation leaves it. *)
Definition completed_with (payload : pydict) (t : AgentTask) : AgentTask :=
  set_result (Some payload) (set_status "completed" t).

(** The location the world builder works on for the task [id]: the one
    [resolve_location] finds or creates. *)
Definition target_location (id : string) (s : GameImplementationState) : GameLocation :=
  fst (WorldBuilderAgent.resolve_location id s).

(** Scenario A: the queue holds the single task create_starting_town, of type
    map_creation and without dependencies. *)
Definition scenario_A : GameImplementationState :=
  mkState [DirectorAgent.world_builder_task]
    (game_data (initialize_game_state "Demo" ""))
    (mkDirectorAgentState (new_agent_state "director") [0%nat] [] [])
    None None None None None "implementation" 0%Q [].

(** Scenario C for the event engineer: the map exists, the queue holds the
    cutscene task, whose dependency is completed. *)
Definition scenario_cutscene : GameImplementationState :=
  mkState [DirectorAgent.event_engineer_task]
    (set_locations [set_loc_id (Some 1) (WorldBuilderAgent.default_location "starting town")]
       (game_data (initialize_game_state "Demo" "")))
    (mkDirectorAgentState
       (set_completed_tasks ["create_starting_town"] (new_agent_state "director"))
       [0%nat] [] [])
    None None None None None "implementation" (1 # 10)%Q [].

(** A map task that depends on a task that is not completed, followed by a
    cutscene task without dependencies. *)
Definition castle_task : AgentTask :=
  mkAgentTask "create_castle" "map_creation" "Create the castle map" 1
    ["create_starting_town"] "pending" None [] None.

Definition opening_task : AgentTask :=
  mkAgentTask "create_opening" "cutscene_creation" "Create the opening cutscene" 2
    [] "pending" None [] None.

Definition blocked_map_state : GameImplementationState :=
  mkState [castle_task; opening_task]
    (game_data (initialize_game_state "Demo" ""))
    (mkDirectorAgentState (new_agent_state "director") [0%nat; 1%nat] [] [])
    None None None None None "implementation" 0%Q [].

(** A pending task whose type starts with map without being map_creation. *)
Definition map_review_state : GameImplementationState :=
  mkState [mkAgentTask "review_maps" "map_review" "Review the maps" 1 [] "pending" None [] None]
    (game_data (initialize_game_state "Demo" ""))
    (mkDirectorAgentState (new_agent_state "director") [0%nat] [] [])
    None None None None None "implementation" 0%Q [].












(** * Properties *)

Local Open Scope list_scope.

(** ** The string functions on the names the director uses *)

Example replace_create :
  replace "_" " " (replace "create_" "" "create_starting_town") = "starting town".
Proof. reflexivity. Qed.

Example title_town : title "starting town" = "Starting Town".
Proof. reflexivity. Qed.

Example title_digits : title "town2b hall" = "Town2B Hall".
Proof. reflexivity. Qed.

(** ** The object store *)

Section Store.

Implicit Types (s : GameImplementationState) (a b : addr) (t : AgentTask)
  (f g : AgentTask -> AgentTask).

Lemma update_task_tasks a f s t :
  tasks s !! a = Some t -> tasks (update_task a f s) = <[a := f t]> (tasks s).
Proof. intros H. unfold update_task. rewrite H. reflexivity. Qed.

Lemma update_task_lookup a f s t :
  tasks s !! a = Some t -> tasks (update_task a f s) !! a = Some (f t).
Proof.
  intros H. rewrite (update_task_tasks _ _ _ _ H).
  apply list_lookup_insert_eq. eapply lookup_lt_Some, H.
Qed.

Lemma update_task_lookup_ne a b f s :
  a <> b -> tasks (update_task a f s) !! b = tasks s !! b.
Proof.
  intros H. unfold update_task. destruct (tasks s !! a) eqn:E; [|reflexivity].
  simpl. apply list_lookup_insert_ne, H.
Qed.

Lemma update_task_rest a f s :
  game_data (update_task a f s) = game_data s
  /\ director (update_task a f s) = director s
  /\ world_builder (update_task a f s) = world_builder s
  /\ event_engineer (update_task a f s) = event_engineer s
  /\ combat_system (update_task a f s) = combat_system s
  /\ asset_manager (update_task a f s) = asset_manager s
  /\ tester (update_task a f s) = tester s
  /\ current_stage (update_task a f s) = current_stage s
  /\ implementation_progress (update_task a f s) = implementation_progress s
  /\ log (update_task a f s) = log s.
Proof. unfold update_task. destruct (tasks s !! a); repeat split. Qed.

Lemma find_task_Some p h q a :
  find_task p h q = Some a ->
  In a q /\ exists t, h !! a = Some t /\ p t = true.
Proof.
  induction q as [|b q IH]; simpl; [discriminate|].
  destruct (h !! b) as [t|] eqn:E.
  - destruct (p t) eqn:P.
    + intros [= <-]. split; [now left|]. eauto.
    + intros H. destruct (IH H) as [? ?]. split; [now right|assumption].
  - intros H. destruct (IH H) as [? ?]. split; [now right|assumption].
Qed.

End Store.

(** ** Which task objects a step may touch *)

Section Untouched.

Implicit Types (s : GameImplementationState) (a b : addr) (t : AgentTask).

Lemma WorldBuilder_init_frame s :
  tasks (WorldBuilderAgent.init s) = tasks s
  /\ director (WorldBuilderAgent.init s) = director s
  /\ game_data (WorldBuilderAgent.init s) = game_data s
  /\ current_stage (WorldBuilderAgent.init s) = current_stage s
  /\ implementation_progress (WorldBuilderAgent.init s) = implementation_progress s.
Proof. unfold WorldBuilderAgent.init. destruct (world_builder s); repeat split. Qed.

Lemma EventEngineer_init_frame s :
  tasks (EventEngineerAgent.init s) = tasks s
  /\ director (EventEngineerAgent.init s) = director s
  /\ game_data (EventEngineerAgent.init s) = game_data s
  /\ current_stage (EventEngineerAgent.init s) = current_stage s
  /\ implementation_progress (EventEngineerAgent.init s) = implementation_progress s.
Proof. unfold EventEngineerAgent.init. destruct (event_engineer s); repeat split. Qed.

Lemma WorldBuilder_find_init s :
  WorldBuilderAgent.find (WorldBuilderAgent.init s) = WorldBuilderAgent.find s.
Proof.
  unfold WorldBuilderAgent.find.
  destruct (WorldBuilder_init_frame s) as (-> & -> & _). reflexivity.
Qed.

Lemma EventEngineer_find_init s :
  EventEngineerAgent.find (EventEngineerAgent.init s) = EventEngineerAgent.find s.
Proof.
  unfold EventEngineerAgent.find.
  destruct (EventEngineer_init_frame s) as (-> & -> & _). reflexivity.
Qed.

(** The world builder writes to the task it claims and to no other. *)
Lemma WorldBuilder_touches_claimed tools s b :
  WorldBuilderAgent.find s <> Some b ->
  tasks (WorldBuilderAgent.process tools s) !! b = tasks s !! b.
Proof.
  intros Hb. unfold WorldBuilderAgent.process.
  rewrite WorldBuilder_find_init.
  destruct (WorldBuilder_init_frame s) as (Ht & _).
  destruct (WorldBuilderAgent.find s) as [a|] eqn:F; [|now rewrite Ht].
  assert (a <> b) by congruence.
  destruct (tasks (WorldBuilderAgent.init s) !! a) as [task|] eqn:E; [|now rewrite Ht].
  unfold WorldBuilderAgent.resolve_location.
  destruct (WorldBuilderAgent.lookup_location _ _);
    (destruct tools as [f|]; [destruct (call_create_map f _ _ _ _)|]);
    unfold WorldBuilderAgent.succeed, WorldBuilderAgent.fail, report_completed,
      WorldBuilderAgent.claim; simpl;
    rewrite ?update_task_lookup_ne by assumption; simpl;
    rewrite ?update_task_lookup_ne by assumption; now rewrite ?Ht.
Qed.

Lemma EventEngineer_touches_claimed tools s b :
  EventEngineerAgent.find s <> Some b ->
  tasks (EventEngineerAgent.process tools s) !! b = tasks s !! b.
Proof.
  intros Hb. unfold EventEngineerAgent.process.
  rewrite EventEngineer_find_init.
  destruct (EventEngineer_init_frame s) as (Ht & _).
  destruct (EventEngineerAgent.find s) as [a|] eqn:F; [|now rewrite Ht].
  assert (a <> b) by congruence.
  destruct (tasks (EventEngineerAgent.init s) !! a) as [task|] eqn:E; [|now rewrite Ht].
  destruct tools as [f|];
    [destruct (String.eqb (task_type task) "cutscene_creation");
     [destruct (EventEngineerAgent.create_intro_event f _) as [[event_id map_id]|]|]|];
    unfold EventEngineerAgent.succeed, EventEngineerAgent.fail, report_completed,
      EventEngineerAgent.claim; simpl;
    rewrite ?update_task_lookup_ne by assumption; simpl;
    rewrite ?update_task_lookup_ne by assumption; now rewrite ?Ht.
Qed.

Lemma Director_keeps_tasks s b t :
  tasks s !! b = Some t -> tasks (DirectorAgent.process s) !! b = Some t.
Proof.
  intros H. unfold DirectorAgent.process.
  destruct (String.eqb (current_stage s) "planning"); [|assumption].
  simpl. now apply lookup_app_l_Some.
Qed.

(** A task that neither worker finds eligible is left as it is by every
    node. *)
Lemma dispatch_keeps_task node tools s b t :
  tasks s !! b = Some t ->
  WorldBuilderAgent.eligible t = false ->
  (forall completed, EventEngineerAgent.eligible completed t = false) ->
  tasks (dispatch node tools s) !! b = Some t.
Proof.
  intros Hb Hw He.
  destruct node; simpl.
  - now apply Director_keeps_tasks.
  - rewrite WorldBuilder_touches_claimed; [assumption|].
    intros F. apply find_task_Some in F as (_ & t' & Ht' & P). congruence.
  - rewrite EventEngineer_touches_claimed; [assumption|].
    intros F. apply find_task_Some in F as (_ & t' & Ht' & P).
    rewrite Hb in Ht'. injection Ht' as <-. now rewrite He in P.
  - unfold CombatSystemAgent.process. now destruct (combat_system s).
  - unfold AssetManagerAgent.process. now destruct (asset_manager s).
  - unfold TestingAgent.process. now destruct (tester s).
Qed.

Lemma run_keeps_task world : forall s b t,
  tasks s !! b = Some t ->
  WorldBuilderAgent.eligible t = false ->
  (forall completed, EventEngineerAgent.eligible completed t = false) ->
  tasks (run world s) !! b = Some t.
Proof.
  induction world as [|tools world IH]; intros s b t Hb Hw He; simpl; [assumption|].
  pose proof (dispatch_keeps_task (route_implementation s) tools s b t Hb Hw He) as H.
  fold (step tools s) in H.
  destruct (task_queue (director (step tools s))); [assumption|].
  now apply IH.
Qed.

Lemma not_pending_ineligible t :
  status t <> "pending" ->
  WorldBuilderAgent.eligible t = false
  /\ forall completed, EventEngineerAgent.eligible completed t = false.
Proof.
  intros H. apply String.eqb_neq in H.
  unfold WorldBuilderAgent.eligible, EventEngineerAgent.eligible. rewrite H.
  split; [|intros completed]; now rewrite ?andb_false_r.
Qed.

End Untouched.

(** ** The roles without an implementation *)

Lemma combat_and_asset_ineligible (t : AgentTask) :
  str_in (task_type t) combat_and_asset_types = true ->
  WorldBuilderAgent.eligible t = false
  /\ forall completed, EventEngineerAgent.eligible completed t = false.
Proof.
  unfold str_in, combat_and_asset_types. simpl. intros H.
  repeat (apply orb_true_iff in H as [H|H]); try discriminate;
    apply String.eqb_eq in H;
    unfold WorldBuilderAgent.eligible, EventEngineerAgent.eligible, str_in,
      event_engineer_types; rewrite H; split; reflexivity.
Qed.

(** C10.  The [process] of the combat system, the asset manager and the tester
    changes nothing in the workflow state except its own role state, which it
    sets to the empty defaults when it is absent: the task store, the game
    data, the director (queue and completed ids), the two workers, the stage,
    the progress and the log are the same afterwards.  So a pending task of
    type skill_creation, enemy_creation, troop_creation or asset_management is
    still in the queue and still pending after such a step, and no node of the
    graph ever writes to it in any later run. *)
Theorem stub_roles_leave_state_unchanged (node : Node) (tools : option Tools)
    (s : GameImplementationState) :
  node = CombatSystem \/ node = AssetManager \/ node = Tester ->
  let s' := dispatch node tools s in
  tasks s' = tasks s
  /\ game_data s' = game_data s
  /\ director s' = director s
  /\ world_builder s' = world_builder s
  /\ event_engineer s' = event_engineer s
  /\ current_stage s' = current_stage s
  /\ implementation_progress s' = implementation_progress s
  /\ log s' = log s
  /\ combat_system s' =
       match node with
       | CombatSystem =>
           Some (default (mkCombatSystemAgentState (new_agent_state "combat_system") [] [] [] [])
                   (combat_system s))
       | _ => combat_system s
       end
  /\ asset_manager s' =
       match node with
       | AssetManager =>
           Some (default (mkAssetManagerAgentState (new_agent_state "asset_manager") [] [] [])
                   (asset_manager s))
       | _ => asset_manager s
       end
  /\ tester s' =
       match node with
       | Tester =>
           Some (default (mkTestingAgentState (new_agent_state "tester") [] [] [])
                   (tester s))
       | _ => tester s
       end
  /\ forall a t,
       In a (task_queue (director s)) ->
       tasks s !! a = Some t ->
       status t = "pending" ->
       str_in (task_type t) combat_and_asset_types = true ->
       In a (task_queue (director s'))
       /\ tasks s' !! a = Some t
       /\ forall world, tasks (run world s') !! a = Some t.
Proof.
  intros Hnode s'.
  assert (Hframe : tasks s' = tasks s /\ director s' = director s).
  { subst s'. destruct Hnode as [->|[->| ->]]; simpl;
      [unfold CombatSystemAgent.process; destruct (combat_system s)
      |unfold AssetManagerAgent.process; destruct (asset_manager s)
      |unfold TestingAgent.process; destruct (tester s)]; split; reflexivity. }
  destruct Hframe as [Ht Hd].
  repeat match goal with |- _ /\ _ => split end;
    try (subst s'; destruct Hnode as [->|[->| ->]]; simpl;
         [unfold CombatSystemAgent.process; destruct (combat_system s) eqn:E
         |unfold AssetManagerAgent.process; destruct (asset_manager s) eqn:E
         |unfold TestingAgent.process; destruct (tester s) eqn:E];
         simpl; rewrite ?E; reflexivity).
  intros a t Hin Ha Hp Hk.
  destruct (combat_and_asset_ineligible t Hk) as [Hw He].
  rewrite Hd, Ht. repeat split; try assumption.
  intros world. apply run_keeps_task; try assumption. now rewrite Ht.
Qed.

Lemma stub_roles_leave_state_unchanged_witness :
  route_implementation combat_state = CombatSystem
  /\ tasks (dispatch CombatSystem None combat_state) = [skill_task]
  /\ task_queue (director (dispatch CombatSystem None combat_state)) = [0%nat].
Proof.
  split; [reflexivity|].
  pose proof (stub_roles_leave_state_unchanged CombatSystem None combat_state
                (or_introl eq_refl)) as H.
  destruct H as (Ht & _ & Hd & _).
  split; [exact Ht|]. rewrite Hd. reflexivity.
Defined.

(** ** Claiming a task *)

Lemma update_task_twice (a : addr) (f g : AgentTask -> AgentTask)
    (s : GameImplementationState) (t : AgentTask) :
  tasks s !! a = Some t ->
  tasks (update_task a f (update_task a g s)) = <[a := f (g t)]> (tasks s).
Proof.
  intros H.
  rewrite (update_task_tasks a f _ (g t)) by now apply update_task_lookup.
  rewrite (update_task_tasks a g s t H). apply list_insert_insert_eq.
Qed.

Lemma EventEngineer_claim_tasks (a : addr) (s : GameImplementationState) (t : AgentTask) :
  tasks s !! a = Some t ->
  tasks (EventEngineerAgent.claim a s) = <[a := claimed_by "event_engineer" t]> (tasks s).
Proof. intros H. unfold EventEngineerAgent.claim. simpl. now apply update_task_twice. Qed.

Lemma WorldBuilder_claim_tasks (a : addr) (s : GameImplementationState) (t : AgentTask) :
  tasks s !! a = Some t ->
  tasks (WorldBuilderAgent.claim a s) = <[a := claimed_by "world_builder" t]> (tasks s).
Proof. intros H. unfold WorldBuilderAgent.claim. simpl. now apply update_task_twice. Qed.

Lemma EventEngineer_claim_frame (a : addr) (s : GameImplementationState) :
  game_data (EventEngineerAgent.claim a s) = game_data s
  /\ director (EventEngineerAgent.claim a s) = director s
  /\ world_builder (EventEngineerAgent.claim a s) = world_builder s
  /\ current_stage (EventEngineerAgent.claim a s) = current_stage s
  /\ implementation_progress (EventEngineerAgent.claim a s) = implementation_progress s
  /\ event_engineer (EventEngineerAgent.claim a s)
     = (fun e => set_ee_base (set_current_task (Some a) (ee_base e)) e) <$> event_engineer s.
Proof.
  unfold EventEngineerAgent.claim. simpl.
  destruct (update_task_rest a (set_assigned_to (Some EventEngineerAgent.agent_id))
              (update_task a (set_status "in_progress") s))
    as (-> & -> & -> & -> & _ & _ & _ & -> & -> & _).
  destruct (update_task_rest a (set_status "in_progress") s)
    as (-> & -> & -> & -> & _ & _ & _ & -> & -> & _).
  repeat split.
Qed.

Lemma WorldBuilder_claim_frame (a : addr) (s : GameImplementationState) :
  game_data (WorldBuilderAgent.claim a s) = game_data s
  /\ director (WorldBuilderAgent.claim a s) = director s
  /\ event_engineer (WorldBuilderAgent.claim a s) = event_engineer s
  /\ current_stage (WorldBuilderAgent.claim a s) = current_stage s
  /\ implementation_progress (WorldBuilderAgent.claim a s) = implementation_progress s
  /\ world_builder (WorldBuilderAgent.claim a s)
     = (fun w => set_wb_base (set_current_task (Some a) (wb_base w)) w) <$> world_builder s.
Proof.
  unfold WorldBuilderAgent.claim. simpl.
  destruct (update_task_rest a (set_assigned_to (Some WorldBuilderAgent.agent_id))
              (update_task a (set_status "in_progress") s))
    as (-> & -> & -> & -> & _ & _ & _ & -> & -> & _).
  destruct (update_task_rest a (set_status "in_progress") s)
    as (-> & -> & -> & -> & _ & _ & _ & -> & -> & _).
  repeat split.
Qed.

(** ** The event engineer on event and dialogue tasks *)

(** C9.  When the first task the event engineer finds eligible (pending, of one
    of its three types, dependencies completed) has type event_creation or
    dialogue_creation, [process] claims it and does nothing else: the task
    object gets status in_progress and [assigned_to] event_engineer, it is the
    event engineer's [current_task], the director is unchanged (the task is
    still in the queue, no id is added to the completed ids), the event
    engineer's completed ids are unchanged, the progress, the game data and
    the stage are unchanged, whatever the tools are.  No later run of the
    engine writes to the task again, so it is never completed nor failed. *)
Theorem event_engineer_claims_without_executing (tools : option Tools)
    (s : GameImplementationState) (a : addr) (t : AgentTask) :
  EventEngineerAgent.find s = Some a ->
  tasks s !! a = Some t ->
  task_type t = "event_creation" \/ task_type t = "dialogue_creation" ->
  let s' := EventEngineerAgent.process tools s in
  let t' := claimed_by "event_engineer" t in
  tasks s' = <[a := t']> (tasks s)
  /\ tasks s' !! a = Some t'
  /\ status t' = "in_progress"
  /\ assigned_to t' = Some "event_engineer"
  /\ result t' = result t
  /\ (exists e, event_engineer s' = Some e
                /\ current_task (ee_base e) = Some a
                /\ completed_tasks (ee_base e)
                   = default [] ((fun e0 => completed_tasks (ee_base e0)) <$> event_engineer s))
  /\ director s' = director s
  /\ In a (task_queue (director s'))
  /\ world_builder s' = world_builder s
  /\ game_data s' = game_data s
  /\ implementation_progress s' = implementation_progress s
  /\ current_stage s' = current_stage s
  /\ forall world, tasks (run world s') !! a = Some t'.
Proof.
  intros Hfind Ha Hty s' t'.
  destruct (EventEngineer_init_frame s) as (Hti & Hdi & Hgi & Hsi & Hpi).
  assert (Hs' : s' = EventEngineerAgent.claim a (EventEngineerAgent.init s)).
  { subst s'. unfold EventEngineerAgent.process.
    rewrite EventEngineer_find_init, Hfind, Hti, Ha.
    destruct tools as [f|]; [|reflexivity].
    destruct Hty as [-> | ->]; reflexivity. }
  assert (Htasks : tasks s' = <[a := t']> (tasks s)).
  { rewrite Hs', <- Hti. apply EventEngineer_claim_tasks. now rewrite Hti. }
  assert (Hlook : tasks s' !! a = Some t').
  { rewrite Htasks. apply list_lookup_insert_eq. eapply lookup_lt_Some, Ha. }
  destruct (EventEngineer_claim_frame a (EventEngineerAgent.init s))
    as (Hg & Hd & Hw & Hst & Hp & He).
  rewrite <- Hs' in Hg, Hd, Hw, Hst, Hp, He.
  split; [assumption|]. split; [assumption|].
  do 3 (split; [reflexivity|]).
  split.
  { rewrite He. unfold EventEngineerAgent.init.
    destruct (event_engineer s) as [e|] eqn:E; simpl; rewrite ?E; simpl;
      eexists; (split; [reflexivity|]); split; reflexivity. }
  split; [congruence|].
  split. { rewrite Hd, Hdi. now apply find_task_Some in Hfind as (? & _). }
  split. { rewrite Hw. unfold EventEngineerAgent.init. now destruct (event_engineer s). }
  split; [congruence|]. split; [congruence|]. split; [congruence|].
  intros world.
  destruct (not_pending_ineligible t') as [Hw' He']; [discriminate|].
  now apply run_keeps_task.
Qed.

Lemma event_engineer_claims_without_executing_witness :
  route_implementation dialogue_state = EventEngineer
  /\ tasks (EventEngineerAgent.process (Some (tools_returning 1 1)) dialogue_state)
     = [claimed_by "event_engineer" dialogue_task]
  /\ task_queue (director (EventEngineerAgent.process (Some (tools_returning 1 1)) dialogue_state))
     = [0%nat].
Proof.
  split; [reflexivity|].
  pose proof (event_engineer_claims_without_executing (Some (tools_returning 1 1))
                dialogue_state 0%nat dialogue_task eq_refl eq_refl (or_intror eq_refl)) as H.
  destruct H as (Ht & _ & _ & _ & _ & _ & Hd & _).
  split; [exact Ht|]. rewrite Hd. reflexivity.
Defined.

(** ** What a step leaves alone *)

Lemma update_task_stage (a : addr) (f : AgentTask -> AgentTask) (s : GameImplementationState) :
  current_stage (update_task a f s) = current_stage s.
Proof. apply update_task_rest. Qed.

Lemma update_task_progress (a : addr) (f : AgentTask -> AgentTask) (s : GameImplementationState) :
  implementation_progress (update_task a f s) = implementation_progress s.
Proof. apply update_task_rest. Qed.

Lemma update_task_director (a : addr) (f : AgentTask -> AgentTask) (s : GameImplementationState) :
  director (update_task a f s) = director s.
Proof. apply update_task_rest. Qed.

Lemma update_task_game_data (a : addr) (f : AgentTask -> AgentTask) (s : GameImplementationState) :
  game_data (update_task a f s) = game_data s.
Proof. apply update_task_rest. Qed.

Lemma update_task_world_builder (a : addr) (f : AgentTask -> AgentTask) (s : GameImplementationState) :
  world_builder (update_task a f s) = world_builder s.
Proof. apply update_task_rest. Qed.

Lemma update_task_event_engineer (a : addr) (f : AgentTask -> AgentTask) (s : GameImplementationState) :
  event_engineer (update_task a f s) = event_engineer s.
Proof. apply update_task_rest. Qed.

Create Rewrite HintDb frame.
#[local] Hint Rewrite update_task_stage update_task_progress update_task_director
  update_task_game_data update_task_world_builder update_task_event_engineer : frame.

Ltac frame_simpl := repeat (progress (simpl; autorewrite with frame)).

Ltac unfold_workers :=
  unfold WorldBuilderAgent.succeed, WorldBuilderAgent.fail, WorldBuilderAgent.claim,
    EventEngineerAgent.succeed, EventEngineerAgent.fail, EventEngineerAgent.claim,
    report_completed.

(** The cases of the world builder's [process]. *)
Ltac world_builder_cases tools s :=
  unfold WorldBuilderAgent.process;
  destruct (WorldBuilderAgent.find (WorldBuilderAgent.init s)) as [?a|];
  [destruct (tasks (WorldBuilderAgent.init s) !! a) as [?task|];
   [unfold WorldBuilderAgent.resolve_location;
    destruct (WorldBuilderAgent.lookup_location _ _);
    (destruct tools as [?f|]; [destruct (call_create_map f _ _ _ _)|])|]|].

(** The cases of the event engineer's [process]. *)
Ltac event_engineer_cases tools s :=
  unfold EventEngineerAgent.process;
  destruct (EventEngineerAgent.find (EventEngineerAgent.init s)) as [?a|];
  [destruct (tasks (EventEngineerAgent.init s) !! a) as [?task|];
   [destruct tools as [?f|];
    [destruct (String.eqb (task_type task) "cutscene_creation");
     [destruct (EventEngineerAgent.create_intro_event f _) as [[?event_id ?map_id]|]|]|]|]|].

Lemma WorldBuilder_keeps_stage (tools : option Tools) (s : GameImplementationState) :
  current_stage (WorldBuilderAgent.process tools s) = current_stage s.
Proof.
  destruct (WorldBuilder_init_frame s) as (_ & _ & _ & H & _).
  world_builder_cases tools s; unfold_workers; frame_simpl; exact H.
Qed.

Lemma EventEngineer_keeps_stage (tools : option Tools) (s : GameImplementationState) :
  current_stage (EventEngineerAgent.process tools s) = current_stage s.
Proof.
  destruct (EventEngineer_init_frame s) as (_ & _ & _ & H & _).
  event_engineer_cases tools s; unfold_workers; frame_simpl; exact H.
Qed.

(** Only the director changes the stage, and only out of planning. *)
Lemma dispatch_stage (node : Node) (tools : option Tools) (s : GameImplementationState) :
  current_stage (dispatch node tools s)
  = if String.eqb (current_stage s) "planning"
    then match node with Director => "implementation" | _ => current_stage s end
    else current_stage s.
Proof.
  assert (H : forall x : string, (if String.eqb (current_stage s) "planning" then x else x) = x)
    by (intros x; now destruct (String.eqb _ _)).
  destruct node; simpl; rewrite ?H.
  - unfold DirectorAgent.process. now destruct (String.eqb _ _).
  - apply WorldBuilder_keeps_stage.
  - apply EventEngineer_keeps_stage.
  - unfold CombatSystemAgent.process. now destruct (combat_system s).
  - unfold AssetManagerAgent.process. now destruct (asset_manager s).
  - unfold TestingAgent.process. now destruct (tester s).
Qed.

Lemma step_from_implementation (tools : option Tools) (s : GameImplementationState) :
  current_stage s = "implementation" -> current_stage (step tools s) = "implementation".
Proof. intros H. unfold step. rewrite dispatch_stage, H. reflexivity. Qed.

Lemma trace_implementation (world : list (option Tools)) :
  forall s, current_stage s = "implementation" ->
    Forall (fun s' => current_stage s' = "implementation") (trace world s)
    /\ stage_transitions "planning" "implementation" (trace world s) = 0%nat.
Proof.
  induction world as [|tools world IH]; intros s H; simpl.
  - split; [repeat constructor; assumption | reflexivity].
  - pose proof (step_from_implementation tools s H) as H'.
    destruct (task_queue (director (step tools s))) eqn:Q.
    + split; [repeat constructor; assumption|]. now rewrite H.
    + destruct (IH _ H') as [IH1 IH2]. split; [constructor; assumption|].
      destruct world; simpl in *; rewrite H; simpl; try reflexivity;
        exact IH2.
Qed.

Lemma run_implementation (world : list (option Tools)) :
  forall s, current_stage s = "implementation" ->
    current_stage (run world s) = "implementation".
Proof.
  induction world as [|tools world IH]; intros s H; simpl; [assumption|].
  pose proof (step_from_implementation tools s H) as H'.
  destruct (task_queue (director (step tools s))); [assumption|]. now apply IH.
Qed.

Lemma trace_head (world : list (option Tools)) (s : GameImplementationState) :
  exists rest, trace world s = s :: rest.
Proof. destruct world; simpl; eauto. Qed.

Lemma stage_transitions_cons (old new : string) (s1 s2 : GameImplementationState)
    (rest : list GameImplementationState) :
  stage_transitions old new (s1 :: s2 :: rest)
  = ((if String.eqb (current_stage s1) old && String.eqb (current_stage s2) new
      then 1 else 0)
     + stage_transitions old new (s2 :: rest))%nat.
Proof. reflexivity. Qed.

(** ** The planning stage *)

(** C7.  From a state whose stage is planning, whatever the queue holds, the
    router returns the director; the step is the director's [process], which
    moves the stage to implementation and leaves two tasks in the queue.  In a
    run of at least one step the stage goes from planning to implementation
    exactly once, and every state after the first step, the final one
    included, has stage implementation. *)
Theorem planning_stage_left_exactly_once (tools : option Tools)
    (world : list (option Tools)) (s : GameImplementationState) :
  current_stage s = "planning" ->
  route_implementation s = Director
  /\ step tools s = DirectorAgent.process s
  /\ current_stage (step tools s) = "implementation"
  /\ stage_transitions "planning" "implementation" (trace (tools :: world) s) = 1%nat
  /\ Forall (fun s' => current_stage s' = "implementation")
       (tail (trace (tools :: world) s))
  /\ current_stage (run (tools :: world) s) = "implementation".
Proof.
  intros H.
  assert (Hr : route_implementation s = Director).
  { unfold route_implementation. now rewrite H. }
  assert (Hs : step tools s = DirectorAgent.process s).
  { unfold step. now rewrite Hr. }
  assert (Hi : current_stage (step tools s) = "implementation").
  { rewrite Hs. unfold DirectorAgent.process. now rewrite H. }
  assert (Hq : task_queue (director (step tools s))
               = [length (tasks s); S (length (tasks s))]).
  { rewrite Hs. unfold DirectorAgent.process. now rewrite H. }
  repeat split; try assumption.
  - cbn [trace]. cbv zeta. rewrite Hq.
    destruct (trace_implementation world _ Hi) as [_ H0].
    destruct (trace_head world (step tools s)) as [rest E].
    rewrite E in *. rewrite stage_transitions_cons, H, Hi, H0. reflexivity.
  - simpl. rewrite Hq. now apply trace_implementation.
  - simpl. rewrite Hq. now apply run_implementation.
Qed.

Lemma planning_stage_left_exactly_once_witness :
  route_implementation (initialize_game_state "Demo" "") = Director
  /\ stage_transitions "planning" "implementation"
       (trace [None; Some (tools_returning 1 1); Some (tools_returning 1 1)]
          (initialize_game_state "Demo" "")) = 1%nat.
Proof.
  pose proof (planning_stage_left_exactly_once None
                [Some (tools_returning 1 1); Some (tools_returning 1 1)]
                (initialize_game_state "Demo" "") eq_refl) as H.
  destruct H as (Hr & _ & _ & Ht & _). split; assumption.
Defined.

(** ** A successful creation *)

Lemma remove_id_not_In (h : list AgentTask) (id : string) (q : list addr) (a : addr) :
  id_at h a = Some id -> ~ In a (remove_id h id q).
Proof.
  intros H Hin. unfold remove_id in Hin. apply filter_In in Hin as [_ Hf].
  rewrite H, String.eqb_refl in Hf. discriminate.
Qed.

Lemma WorldBuilder_succeed_tasks (a : addr) (id : string) (loc : GameLocation) (map_id : Z)
    (s : GameImplementationState) (t : AgentTask) :
  tasks s !! a = Some t ->
  tasks (WorldBuilderAgent.succeed a id loc map_id s)
  = <[a := completed_with [("map_id", JInt map_id)] t]> (tasks s).
Proof.
  intros H. unfold WorldBuilderAgent.succeed, report_completed. simpl.
  erewrite update_task_twice; [reflexivity | exact H].
Qed.

Lemma EventEngineer_succeed_tasks (a : addr) (id : string) (event_id map_id : Z)
    (s : GameImplementationState) (t : AgentTask) :
  tasks s !! a = Some t ->
  tasks (EventEngineerAgent.succeed a id event_id map_id s)
  = <[a := completed_with [("event_id", JInt event_id); ("map_id", JInt map_id)] t]> (tasks s).
Proof.
  intros H. unfold EventEngineerAgent.succeed, report_completed. simpl.
  erewrite update_task_twice; [reflexivity | exact H].
Qed.

Lemma resolve_location_frame (id : string) (s : GameImplementationState) :
  tasks (snd (WorldBuilderAgent.resolve_location id s)) = tasks s
  /\ director (snd (WorldBuilderAgent.resolve_location id s)) = director s
  /\ world_builder (snd (WorldBuilderAgent.resolve_location id s)) = world_builder s
  /\ event_engineer (snd (WorldBuilderAgent.resolve_location id s)) = event_engineer s
  /\ current_stage (snd (WorldBuilderAgent.resolve_location id s)) = current_stage s
  /\ implementation_progress (snd (WorldBuilderAgent.resolve_location id s))
     = implementation_progress s.
Proof.
  unfold WorldBuilderAgent.resolve_location.
  destruct (WorldBuilderAgent.lookup_location _ _); repeat split.
Qed.

Lemma target_location_game_data (id : string) (s1 s2 : GameImplementationState) :
  game_data s1 = game_data s2 -> target_location id s1 = target_location id s2.
Proof.
  intros H. unfold target_location, WorldBuilderAgent.resolve_location. rewrite H.
  now destruct (WorldBuilderAgent.lookup_location _ _).
Qed.

(** The world builder's [process] when the creation call returns. *)
Lemma WorldBuilder_process_success (f : Tools) (s : GameImplementationState)
    (a : addr) (t : AgentTask) (map_id : Z) :
  WorldBuilderAgent.find s = Some a ->
  tasks s !! a = Some t ->
  (let loc := target_location (task_id t) s in
   call_create_map f (loc_name loc) (width loc) (height loc) (tileset_id loc))
  = Returns map_id ->
  WorldBuilderAgent.process (Some f) s
  = WorldBuilderAgent.succeed a (task_id t) (target_location (task_id t) s) map_id
      (snd (WorldBuilderAgent.resolve_location (task_id t)
              (WorldBuilderAgent.claim a (WorldBuilderAgent.init s)))).
Proof.
  intros Hfind Ha Hcall. unfold WorldBuilderAgent.process.
  destruct (WorldBuilder_init_frame s) as (Ht & _ & Hg & _).
  rewrite WorldBuilder_find_init, Hfind, Ht, Ha.
  assert (E : target_location (task_id t)
                (WorldBuilderAgent.claim a (WorldBuilderAgent.init s))
              = target_location (task_id t) s).
  { apply target_location_game_data.
    destruct (WorldBuilder_claim_frame a (WorldBuilderAgent.init s)) as (-> & _).
    exact Hg. }
  unfold target_location in E at 1.
  destruct (WorldBuilderAgent.resolve_location _ _) as [loc s2]. simpl in E. subst loc.
  simpl in Hcall. rewrite Hcall. reflexivity.
Qed.

(** The event engineer's [process] when the creation call returns. *)
Lemma EventEngineer_process_success (f : Tools) (s : GameImplementationState)
    (a : addr) (t : AgentTask) (event_id map_id : Z) :
  EventEngineerAgent.find s = Some a ->
  tasks s !! a = Some t ->
  task_type t = "cutscene_creation" ->
  EventEngineerAgent.create_intro_event f (EventEngineerAgent.first_map_id s)
  = Returns (event_id, map_id) ->
  EventEngineerAgent.process (Some f) s
  = EventEngineerAgent.succeed a (task_id t) event_id map_id
      (EventEngineerAgent.claim a (EventEngineerAgent.init s)).
Proof.
  intros Hfind Ha Hty Hcall. unfold EventEngineerAgent.process.
  destruct (EventEngineer_init_frame s) as (Ht & _ & Hg & _).
  rewrite EventEngineer_find_init, Hfind, Ht, Ha, Hty. simpl.
  assert (E : EventEngineerAgent.first_map_id
                (EventEngineerAgent.claim a (EventEngineerAgent.init s))
              = EventEngineerAgent.first_map_id s).
  { unfold EventEngineerAgent.first_map_id.
    destruct (EventEngineer_claim_frame a (EventEngineerAgent.init s)) as (-> & _).
    now rewrite Hg. }
  rewrite E, Hcall. reflexivity.
Qed.

(** C6.  When the task a worker claims is executed and the creation call
    returns an id, the returned state has the task object completed with the
    result payload recorded, the role's [current_task] cleared, the task id
    appended to the role's and to the director's completed ids, every task
    with that id (the claimed one among them) filtered out of the queue, and
    the progress increased by 0.1.  This holds for the world builder (first
    part) and for the event engineer on a cutscene task (second part).  In
    scenario A the router selects the world builder, and after one successful
    execution the queue is empty, the completed ids are
    [["create_starting_town"]] and the progress is 0.1 (third part). *)
Theorem successful_execution_postconditions :
  (forall (f : Tools) (s : GameImplementationState) (a : addr) (t : AgentTask) (map_id : Z),
     WorldBuilderAgent.find s = Some a ->
     tasks s !! a = Some t ->
     (let loc := target_location (task_id t) s in
      call_create_map f (loc_name loc) (width loc) (height loc) (tileset_id loc))
     = Returns map_id ->
     let s' := WorldBuilderAgent.process (Some f) s in
     let t' := completed_with [("map_id", JInt map_id)] (claimed_by "world_builder" t) in
     tasks s' = <[a := t']> (tasks s)
     /\ tasks s' !! a = Some t'
     /\ status t' = "completed"
     /\ result t' = Some [("map_id", JInt map_id)]
     /\ (exists w, world_builder s' = Some w
                   /\ current_task (wb_base w) = None
                   /\ completed_tasks (wb_base w)
                      = default [] ((fun w0 => completed_tasks (wb_base w0)) <$> world_builder s)
                        ++ [task_id t]
                   /\ maps_created w
                      = default [] (maps_created <$> world_builder s) ++ [map_id])
     /\ completed_tasks (dir_base (director s'))
        = completed_tasks (dir_base (director s)) ++ [task_id t]
     /\ task_queue (director s')
        = remove_id (tasks s') (task_id t) (task_queue (director s))
     /\ ~ In a (task_queue (director s'))
     /\ implementation_progress s' = (implementation_progress s + (1 # 10))%Q)
  /\
  (forall (f : Tools) (s : GameImplementationState) (a : addr) (t : AgentTask)
          (event_id map_id : Z),
     EventEngineerAgent.find s = Some a ->
     tasks s !! a = Some t ->
     task_type t = "cutscene_creation" ->
     EventEngineerAgent.create_intro_event f (EventEngineerAgent.first_map_id s)
     = Returns (event_id, map_id) ->
     let s' := EventEngineerAgent.process (Some f) s in
     let payload := [("event_id", JInt event_id); ("map_id", JInt map_id)] in
     let t' := completed_with payload (claimed_by "event_engineer" t) in
     tasks s' = <[a := t']> (tasks s)
     /\ tasks s' !! a = Some t'
     /\ status t' = "completed"
     /\ result t' = Some payload
     /\ (exists e, event_engineer s' = Some e
                   /\ current_task (ee_base e) = None
                   /\ completed_tasks (ee_base e)
                      = default [] ((fun e0 => completed_tasks (ee_base e0)) <$> event_engineer s)
                        ++ [task_id t])
     /\ completed_tasks (dir_base (director s'))
        = completed_tasks (dir_base (director s)) ++ [task_id t]
     /\ task_queue (director s')
        = remove_id (tasks s') (task_id t) (task_queue (director s))
     /\ ~ In a (task_queue (director s'))
     /\ implementation_progress s' = (implementation_progress s + (1 # 10))%Q)
  /\
  (route_implementation scenario_A = WorldBuilder
   /\ forall (f : Tools) (map_id : Z),
        call_create_map f "Starting Town" 20 15 1 = Returns map_id ->
        let s' := step (Some f) scenario_A in
        tasks s' = [completed_with [("map_id", JInt map_id)]
                      (claimed_by "world_builder" DirectorAgent.world_builder_task)]
        /\ task_queue (director s') = []
        /\ completed_tasks (dir_base (director s')) = ["create_starting_town"]
        /\ (completed_tasks <$> (wb_base <$> world_builder s'))
           = Some ["create_starting_town"]
        /\ implementation_progress s' = (0 + (1 # 10))%Q).
Proof.
  split; [|split].
  - intros f s a t map_id Hfind Ha Hcall s' t'.
    destruct (WorldBuilder_init_frame s) as (Hti & Hdi & Hgi & Hsi & Hpi).
    pose proof (WorldBuilder_claim_tasks a (WorldBuilderAgent.init s) t) as Hct.
    rewrite Hti in Hct. specialize (Hct Ha).
    destruct (WorldBuilder_claim_frame a (WorldBuilderAgent.init s))
      as (Hcg & Hcd & _ & _ & Hcp & Hcw).
    destruct (resolve_location_frame (task_id t)
                (WorldBuilderAgent.claim a (WorldBuilderAgent.init s)))
      as (Hrt & Hrd & Hrw & _ & _ & Hrp).
    set (s2 := snd (WorldBuilderAgent.resolve_location (task_id t)
                      (WorldBuilderAgent.claim a (WorldBuilderAgent.init s)))) in *.
    assert (Hlen : (a < length (tasks s))%nat) by (eapply lookup_lt_Some, Ha).
    assert (H2 : tasks s2 !! a = Some (claimed_by "world_builder" t)).
    { rewrite Hrt, Hct. now apply list_lookup_insert_eq. }
    assert (Hs' : s' = WorldBuilderAgent.succeed a (task_id t)
                         (target_location (task_id t) s) map_id s2)
      by now apply WorldBuilder_process_success.
    assert (Htasks : tasks s' = <[a := t']> (tasks s)).
    { rewrite Hs', (WorldBuilder_succeed_tasks _ _ _ _ _ _ H2), Hrt, Hct.
      apply list_insert_insert_eq. }
    assert (Hlook : tasks s' !! a = Some t').
    { rewrite Htasks. now apply list_lookup_insert_eq. }
    assert (Hq : task_queue (director s')
                 = remove_id (tasks s') (task_id t) (task_queue (director s))).
    { rewrite Hs'. unfold WorldBuilderAgent.succeed, report_completed. frame_simpl.
      rewrite Hrd, Hcd, Hdi. reflexivity. }
    split; [assumption|]. split; [assumption|].
    split; [reflexivity|]. split; [reflexivity|].
    split.
    { rewrite Hs'. unfold WorldBuilderAgent.succeed, report_completed. frame_simpl.
      rewrite Hrw, Hcw. unfold WorldBuilderAgent.init.
      destruct (world_builder s) as [w|] eqn:E; simpl; rewrite ?E; simpl;
        eexists; (split; [reflexivity|]); repeat split. }
    split.
    { rewrite Hs'. unfold WorldBuilderAgent.succeed, report_completed. frame_simpl.
      rewrite Hrd, Hcd, Hdi. reflexivity. }
    split; [assumption|].
    split.
    { rewrite Hq. apply remove_id_not_In. unfold id_at. now rewrite Hlook. }
    rewrite Hs'. unfold WorldBuilderAgent.succeed, report_completed. frame_simpl.
    rewrite Hrp, Hcp, Hpi. reflexivity.
  - intros f s a t event_id map_id Hfind Ha Hty Hcall s' payload t'.
    destruct (EventEngineer_init_frame s) as (Hti & Hdi & Hgi & Hsi & Hpi).
    pose proof (EventEngineer_claim_tasks a (EventEngineerAgent.init s) t) as Hct.
    rewrite Hti in Hct. specialize (Hct Ha).
    destruct (EventEngineer_claim_frame a (EventEngineerAgent.init s))
      as (Hcg & Hcd & _ & _ & Hcp & Hce).
    set (s1 := EventEngineerAgent.claim a (EventEngineerAgent.init s)) in *.
    assert (Hlen : (a < length (tasks s))%nat) by (eapply lookup_lt_Some, Ha).
    assert (H1 : tasks s1 !! a = Some (claimed_by "event_engineer" t)).
    { rewrite Hct. now apply list_lookup_insert_eq. }
    assert (Hs' : s' = EventEngineerAgent.succeed a (task_id t) event_id map_id s1)
      by now apply EventEngineer_process_success.
    assert (Htasks : tasks s' = <[a := t']> (tasks s)).
    { rewrite Hs', (EventEngineer_succeed_tasks _ _ _ _ _ _ H1), Hct.
      apply list_insert_insert_eq. }
    assert (Hlook : tasks s' !! a = Some t').
    { rewrite Htasks. now apply list_lookup_insert_eq. }
    assert (Hq : task_queue (director s')
                 = remove_id (tasks s') (task_id t) (task_queue (director s))).
    { rewrite Hs'. unfold EventEngineerAgent.succeed, report_completed. frame_simpl.
      rewrite ?Hcd, ?Hdi. reflexivity. }
    split; [assumption|]. split; [assumption|].
    split; [reflexivity|]. split; [reflexivity|].
    split.
    { rewrite Hs'. unfold EventEngineerAgent.succeed, report_completed. frame_simpl.
      rewrite ?Hce. unfold EventEngineerAgent.init.
      destruct (event_engineer s) as [e|] eqn:E; simpl; rewrite ?E; simpl;
        eexists; (split; [reflexivity|]); repeat split. }
    split.
    { rewrite Hs'. unfold EventEngineerAgent.succeed, report_completed. frame_simpl.
      rewrite ?Hcd, ?Hdi. reflexivity. }
    split; [assumption|].
    split.
    { rewrite Hq. apply remove_id_not_In. unfold id_at. now rewrite Hlook. }
    rewrite Hs'. unfold EventEngineerAgent.succeed, report_completed. frame_simpl.
    rewrite ?Hcp, ?Hpi. reflexivity.
  - split; [reflexivity|].
    intros f map_id Hcall s'. subst s'. unfold step.
    change (route_implementation scenario_A) with WorldBuilder.
    cbv [dispatch].
    rewrite (WorldBuilder_process_success f scenario_A 0%nat
               DirectorAgent.world_builder_task map_id eq_refl eq_refl Hcall).
    repeat split.
Qed.

Lemma successful_execution_postconditions_witness :
  let s' := step (Some (tools_returning 1 1)) scenario_A in
  route_implementation scenario_A = WorldBuilder
  /\ task_queue (director s') = []
  /\ completed_tasks (dir_base (director s')) = ["create_starting_town"]
  /\ implementation_progress s' = (0 + (1 # 10))%Q.
Proof.
  destruct successful_execution_postconditions as (_ & _ & Hr & HA).
  destruct (HA (tools_returning 1 1) 1 eq_refl) as (_ & Hq & Hc & _ & Hp).
  repeat split; assumption.
Defined.

(** ** A creation call that raises *)

Lemma WorldBuilder_process_failure (f : Tools) (s : GameImplementationState)
    (a : addr) (t : AgentTask) :
  WorldBuilderAgent.find s = Some a ->
  tasks s !! a = Some t ->
  (let loc := target_location (task_id t) s in
   call_create_map f (loc_name loc) (width loc) (height loc) (tileset_id loc))
  = Raises ->
  WorldBuilderAgent.process (Some f) s
  = WorldBuilderAgent.fail a
      (snd (WorldBuilderAgent.resolve_location (task_id t)
              (WorldBuilderAgent.claim a (WorldBuilderAgent.init s)))).
Proof.
  intros Hfind Ha Hcall. unfold WorldBuilderAgent.process.
  destruct (WorldBuilder_init_frame s) as (Ht & _ & Hg & _).
  rewrite WorldBuilder_find_init, Hfind, Ht, Ha.
  assert (E : target_location (task_id t)
                (WorldBuilderAgent.claim a (WorldBuilderAgent.init s))
              = target_location (task_id t) s).
  { apply target_location_game_data.
    destruct (WorldBuilder_claim_frame a (WorldBuilderAgent.init s)) as (-> & _).
    exact Hg. }
  unfold target_location in E at 1.
  destruct (WorldBuilderAgent.resolve_location _ _) as [loc s2]. simpl in E. subst loc.
  simpl in Hcall. rewrite Hcall. reflexivity.
Qed.

(** When [create_map] raises, the exception is caught: the task is failed and
    stays in the queue, the progress does not move, and the world builder's
    [current_task] still refers to the task. *)
Lemma WorldBuilder_failure_postconditions (f : Tools) (s : GameImplementationState)
    (a : addr) (t : AgentTask) :
  WorldBuilderAgent.find s = Some a ->
  tasks s !! a = Some t ->
  (let loc := target_location (task_id t) s in
   call_create_map f (loc_name loc) (width loc) (height loc) (tileset_id loc))
  = Raises ->
  let s' := WorldBuilderAgent.process (Some f) s in
  tasks s' = <[a := set_status "failed" (claimed_by "world_builder" t)]> (tasks s)
  /\ director s' = director s
  /\ In a (task_queue (director s'))
  /\ implementation_progress s' = implementation_progress s
  /\ exists w, world_builder s' = Some w /\ current_task (wb_base w) = Some a.
Proof.
  intros Hfind Ha Hcall s'.
  destruct (WorldBuilder_init_frame s) as (Hti & Hdi & Hgi & Hsi & Hpi).
  pose proof (WorldBuilder_claim_tasks a (WorldBuilderAgent.init s) t) as Hct.
  rewrite Hti in Hct. specialize (Hct Ha).
  destruct (WorldBuilder_claim_frame a (WorldBuilderAgent.init s))
    as (Hcg & Hcd & _ & _ & Hcp & Hcw).
  destruct (resolve_location_frame (task_id t)
              (WorldBuilderAgent.claim a (WorldBuilderAgent.init s)))
    as (Hrt & Hrd & Hrw & _ & _ & Hrp).
  set (s2 := snd (WorldBuilderAgent.resolve_location (task_id t)
                    (WorldBuilderAgent.claim a (WorldBuilderAgent.init s)))) in *.
  assert (Hlen : (a < length (tasks s))%nat) by (eapply lookup_lt_Some, Ha).
  assert (H2 : tasks s2 !! a = Some (claimed_by "world_builder" t)).
  { rewrite Hrt, Hct. now apply list_lookup_insert_eq. }
  assert (Hs' : s' = WorldBuilderAgent.fail a s2)
    by now apply WorldBuilder_process_failure.
  assert (Hd : director s' = director s).
  { rewrite Hs'. unfold WorldBuilderAgent.fail. frame_simpl. congruence. }
  split.
  { rewrite Hs'. unfold WorldBuilderAgent.fail.
    rewrite (update_task_tasks _ _ _ _ H2), Hrt, Hct. apply list_insert_insert_eq. }
  split; [assumption|].
  split. { rewrite Hd. now apply find_task_Some in Hfind as (? & _). }
  split. { rewrite Hs'. unfold WorldBuilderAgent.fail. frame_simpl. congruence. }
  rewrite Hs'. unfold WorldBuilderAgent.fail. frame_simpl.
  rewrite Hrw, Hcw. unfold WorldBuilderAgent.init.
  destruct (world_builder s) as [w|] eqn:E; simpl; rewrite ?E; simpl;
    eexists; split; reflexivity.
Qed.

(** C4.  The creation call raises in scenario A (world builder) and on the
    cutscene task (event engineer).  [process] returns: the task is failed
    and still in the queue, the progress is unchanged, but the role's
    [current_task] is not cleared, it still refers to the failed task. *)
Theorem failed_creation_keeps_current_task :
  (let s' := step (Some tools_raising) scenario_A in
   route_implementation scenario_A = WorldBuilder
   /\ tasks s' = [set_status "failed"
                    (claimed_by "world_builder" DirectorAgent.world_builder_task)]
   /\ task_queue (director s') = [0%nat]
   /\ implementation_progress s' = implementation_progress scenario_A
   /\ (current_task <$> (wb_base <$> world_builder s')) = Some (Some 0%nat))
  /\
  (let s' := step (Some tools_raising) scenario_cutscene in
   route_implementation scenario_cutscene = EventEngineer
   /\ tasks s' = [set_status "failed"
                    (claimed_by "event_engineer" DirectorAgent.event_engineer_task)]
   /\ task_queue (director s') = [0%nat]
   /\ implementation_progress s' = implementation_progress scenario_cutscene
   /\ (current_task <$> (ee_base <$> event_engineer s')) = Some (Some 0%nat)).
Proof. split; repeat split. Qed.

(** ** Dependencies *)

(** The event engineer claims a task only when its dependencies are among the
    director's completed ids. *)
Lemma EventEngineer_claims_respect_dependencies (s : GameImplementationState) (a : addr) :
  EventEngineerAgent.find s = Some a ->
  exists t, tasks s !! a = Some t
            /\ status t = "pending"
            /\ dependencies_met (completed_tasks (dir_base (director s))) t = true.
Proof.
  intros H. apply find_task_Some in H as (_ & t & Ht & P).
  unfold EventEngineerAgent.eligible in P.
  apply andb_true_iff in P as [P Hd]. apply andb_true_iff in P as [_ Hs].
  apply String.eqb_eq in Hs. eauto.
Qed.

(** The router returns the event engineer only for a pending task of its
    types whose dependencies are completed. *)
Lemma route_tasks_event_engineer (h : list AgentTask) (completed : list string)
    (q : list addr) :
  route_tasks h completed q = Some EventEngineer ->
  exists a t, In a q /\ h !! a = Some t
              /\ status t = "pending"
              /\ str_in (task_type t) event_engineer_types = true
              /\ dependencies_met completed t = true.
Proof.
  induction q as [|b q IH]; [discriminate|]. cbn [route_tasks].
  assert (Hrec : route_tasks h completed q = Some EventEngineer ->
                 exists a t, (b = a \/ In a q) /\ h !! a = Some t
                   /\ status t = "pending"
                   /\ str_in (task_type t) event_engineer_types = true
                   /\ dependencies_met completed t = true).
  { intros H'. destruct (IH H') as (a & t & ? & ?). exists a, t. tauto. }
  destruct (h !! b) as [task|] eqn:E; [|exact Hrec].
  destruct (String.eqb (status task) "pending") eqn:Hs; [|exact Hrec].
  destruct (startswith (task_type task) "map"); [discriminate|].
  destruct (str_in (task_type task) event_engineer_types) eqn:Hk.
  - destruct (dependencies_met completed task) eqn:Hd; [|exact Hrec].
    intros _. exists b, task. apply String.eqb_eq in Hs.
    split; [now left|]. repeat split; assumption.
  - destruct (str_in (task_type task) ["skill_creation"; "enemy_creation"; "troop_creation"]);
      [discriminate|].
    destruct (str_in (task_type task) ["asset_management"]); [discriminate|exact Hrec].
Qed.

(** C1.  In [blocked_map_state] the first task is a pending map task whose
    dependency create_starting_town is not completed.  The router selects the
    world builder, whose [process] claims the task all the same: its status
    goes from pending to in_progress, and to completed when the tools
    answer. *)
Theorem world_builder_claims_blocked_task :
  tasks blocked_map_state !! 0%nat = Some castle_task
  /\ status castle_task = "pending"
  /\ dependencies_met (completed_tasks (dir_base (director blocked_map_state))) castle_task
     = false
  /\ route_implementation blocked_map_state = WorldBuilder
  /\ WorldBuilderAgent.find blocked_map_state = Some 0%nat
  /\ tasks (step None blocked_map_state) !! 0%nat
     = Some (claimed_by "world_builder" castle_task)
  /\ (status <$> tasks (step (Some (tools_returning 1 1)) blocked_map_state) !! 0%nat)
     = Some "completed".
Proof. repeat split. Qed.

(** C2.  In [blocked_map_state] the first pending task is blocked and a later
    one is eligible for the event engineer, yet the router stops at the first
    and returns the world builder.  In [map_review_state] it returns the world
    builder for a type that is not map_creation, which the world builder does
    not pick up. *)
Theorem router_skips_dependency_check :
  dependencies_met (completed_tasks (dir_base (director blocked_map_state))) castle_task
  = false
  /\ EventEngineerAgent.find blocked_map_state = Some 1%nat
  /\ route_implementation blocked_map_state = WorldBuilder
  /\ route_implementation map_review_state = WorldBuilder
  /\ WorldBuilderAgent.find map_review_state = None.
Proof. repeat split. Qed.

(** ** Progress *)









(** ** Counting the pending tasks of the queue *)











(** ** Entities missing from the game data *)











(** ** Allocation of record ids *)






